(** * The query composer, executor, result cache and pager of
      [code_challenge.py]

    A shallow embedding of the helper functions of the dashboard script:
    [build_qry], [build_seq_qrys], [build_CTE] (pure string composition
    that may raise), [fetch_data] and [get_query_result] (the warehouse
    call behind a memoising decorator), [show_grid] / [show_result]
    (pagination) and [cache_df] (the session-scoped store). *)

From Stdlib Require Import ZArith Lia.
From stdpp Require Import gmap strings list fin_maps.

Local Open Scope Z_scope.

(* ===================================================================== *)
(** ** Python values and exceptions                                       *)
(* ===================================================================== *)

(** One cell of a result table. *)
Inductive cell : Type :=
  | CNull
  | CInt (z : Z)
  | CText (s : string).

(** [pd.DataFrame]: ordered columns, ordered rows. *)
Record DataFrame : Type := mkFrame {
  columns : list string;
  rows : list (list cell)
}.

(** [pd.DataFrame()] *)
Definition empty_frame : DataFrame := mkFrame [] [].

(** The values the helpers can be handed. *)
#[warnings="-register-all"]
Inductive pyval : Type :=
  | PNone
  | PBool (b : bool)
  | PInt (z : Z)
  | PStr (s : string)
  | PTuple (items : list pyval)
  | PList (items : list pyval)
  | PFrame (df : DataFrame).

(** The exception classes that occur.  [KeyboardInterrupt] and
    [SystemExit] derive from [BaseException] only, the others from
    [Exception]. *)
Inductive exn_class : Type :=
  | ValueError
  | TypeError
  | NameError
  | StreamlitAPIException
  | SnowparkSQLException
  | KeyboardInterrupt
  | SystemExit.

Record exn : Type := mkExn { exn_cls : exn_class; exn_msg : string }.

(** [isinstance(e, Exception)] *)
Definition is_Exception (e : exn) : bool :=
  match exn_cls e with
  | KeyboardInterrupt | SystemExit => false
  | _ => true
  end.

(** A call either returns or raises. *)
Inductive result (A : Type) : Type :=
  | Ok (a : A)
  | Raise (e : exn).
Arguments Ok {A} a.
Arguments Raise {A} e.

Definition raised {A} (r : result A) : bool :=
  match r with Ok _ => false | Raise _ => true end.

(** [isinstance(v, str)] *)
Definition is_str (v : pyval) : bool :=
  match v with PStr _ => true | _ => false end.

(** [isinstance(i, tuple) and len(i) == 2] *)
Definition is_pair (v : pyval) : bool :=
  match v with
  | PTuple items => Nat.eqb (length items) 2
  | _ => false
  end.

(* ===================================================================== *)
(** ** The query composer                                                 *)
(* ===================================================================== *)

Module Composer.
Section WithFormat.

(** How an f-string field renders a value that is not a [str]
    ([format(v, "")], i.e. [str(v)]).  A [str] renders as itself. *)
Variable format_other : pyval -> string.

Definition py_format (v : pyval) : string :=
  match v with
  | PStr s => s
  | _ => format_other v
  end.

(** [build_qry(tup)] *)
Definition build_qry (tup : pyval) : result string :=
  match tup with
  | PTuple [name; query] =>
      Ok (py_format name +:+ " AS (" +:+ py_format query +:+ ")")
  | _ =>
      Raise (mkExn ValueError
               "Input must be a tuple with two elements: (alias, query).")
  end.

(** The list comprehension [[build_qry(_) for _ in list_queries]]:
    left to right, the first raise ends it. *)
Fixpoint build_each (items : list pyval) : result (list string) :=
  match items with
  | [] => Ok []
  | v :: rest =>
      match build_qry v with
      | Raise e => Raise e
      | Ok s =>
          match build_each rest with
          | Raise e => Raise e
          | Ok ss => Ok (s :: ss)
          end
      end
  end.

(** [sep.join(parts)] *)
Fixpoint str_join (sep : string) (parts : list string) : string :=
  match parts with
  | [] => ""
  | [p] => p
  | p :: rest => p +:+ sep +:+ str_join sep rest
  end.

(** [build_seq_qrys(list_queries)] *)
Definition build_seq_qrys (list_queries : pyval) : result string :=
  match list_queries with
  | PList items =>
      if forallb is_pair items then
        match build_each items with
        | Raise e => Raise e
        | Ok parts => Ok (str_join "," parts)
        end
      else
        Raise (mkExn ValueError
          "Input must be a list of tuples with two elements each: (alias, query).")
  | _ =>
      Raise (mkExn ValueError
        "Input must be a list of tuples with two elements each: (alias, query).")
  end.

(** [build_CTE(list_queries, return_qry)] *)
Definition build_CTE (list_queries return_qry : pyval) : result string :=
  match return_qry with
  | PStr final =>
      match build_seq_qrys list_queries with
      | Raise e => Raise e
      | Ok seq_qrys => Ok ("WITH " +:+ seq_qrys +:+ " " +:+ final +:+ ";")
      end
  | _ => Raise (mkExn ValueError "return_qry must be a string.")
  end.

End WithFormat.
End Composer.

(* ===================================================================== *)
(** ** The process: session store, memo of the executor, warehouse
       traffic and what reached the user surface                          *)
(* ===================================================================== *)

(** What the script puts on the page. *)
Inductive ui_event : Type :=
  | UiWrite (text : string)                       (* st.write *)
  | UiError (text : string)                       (* st.error *)
  | UiNumberInput (label : string) (min_value max_value step value : Z)
  | UiDataframe (df : DataFrame).                 (* st.dataframe *)

Record world : Type := mkWorld {
  session_state : gmap string DataFrame;   (* st.session_state *)
  fetch_memo : gmap string DataFrame;      (* store of @st.cache_data *)
  warehouse_log : list string;             (* queries sent to session.sql *)
  ui_log : list ui_event
}.

Definition set_session (f : gmap string DataFrame -> gmap string DataFrame)
    (w : world) : world :=
  mkWorld (f (session_state w)) (fetch_memo w) (warehouse_log w) (ui_log w).
Definition set_memo (f : gmap string DataFrame -> gmap string DataFrame)
    (w : world) : world :=
  mkWorld (session_state w) (f (fetch_memo w)) (warehouse_log w) (ui_log w).
Definition log_query (q : string) (w : world) : world :=
  mkWorld (session_state w) (fetch_memo w) (warehouse_log w ++ [q]) (ui_log w).
Definition emit (ev : ui_event) (w : world) : world :=
  mkWorld (session_state w) (fetch_memo w) (warehouse_log w) (ui_log w ++ [ev]).

(** A statement run in a world returns or raises, and leaves a world;
    effects made before a raise stay. *)
Definition M (A : Type) : Type := world -> result A * world.

Definition ret {A} (a : A) : M A := fun w => (Ok a, w).
Definition raise {A} (e : exn) : M A := fun w => (Raise e, w).
Definition bind {A B} (m : M A) (k : A -> M B) : M B :=
  fun w =>
    match m w with
    | (Ok a, w') => k a w'
    | (Raise e, w') => (Raise e, w')
    end.
Definition lift {A} (r : result A) : M A := fun w => (r, w).
Definition effect (f : world -> world) : M unit := fun w => (Ok tt, f w).

(** [try: body  except Exception as e: handler(e)] *)
Definition try_except {A} (body : M A) (handler : exn -> M A) : M A :=
  fun w =>
    match body w with
    | (Raise e, w') => if is_Exception e then handler e w' else (Raise e, w')
    | done => done
    end.

Notation "'do' x <- m ;; k" := (bind m (fun x => k))
  (at level 10, x name, m at level 99, k at level 200).
Notation "'run' m ;; k" := (bind m (fun _ => k))
  (at level 10, m at level 99, k at level 200).

(** The Streamlit calls the helpers make. *)
Definition st_write (text : string) : M unit := effect (emit (UiWrite text)).
Definition st_error (text : string) : M unit := effect (emit (UiError text)).
Definition st_dataframe (df : DataFrame) : M unit :=
  effect (emit (UiDataframe df)).

(** [st.number_input(label, min_value, max_value, step, value)] with
    integer arguments.  The widget is drawn with its bounds; an initial
    [value] outside them is refused.  [entry] is what the user types: the
    widget commits it only when it lies within the bounds and otherwise
    keeps its initial value. *)
Definition st_number_input (label : string) (min_value max_value step value : Z)
    (entry : Z) : M Z :=
  if (value <? min_value) || (max_value <? value) then
    raise (mkExn StreamlitAPIException
             "The default value must lie between min_value and max_value.")
  else
    run effect (emit (UiNumberInput label min_value max_value step value)) ;;
    ret (if (min_value <=? entry) && (entry <=? max_value) then entry
         else value).

(** [name in st.session_state] and [st.session_state[name] = df] *)
Definition session_contains (name : string) : M bool :=
  fun w => (Ok (bool_decide (is_Some (session_state w !! name))), w).
Definition session_assign (name : string) (df : DataFrame) : M unit :=
  effect (set_session (insert name df)).

(* ===================================================================== *)
(** ** Pagination                                                         *)
(* ===================================================================== *)

(** [len(df)] *)
Definition len (df : DataFrame) : Z := Z.of_nat (length (rows df)).

(** A slice bound of Python, brought into [0, n]: a negative bound
    counts from the end. *)
Definition clip_index (n i : Z) : Z :=
  if i <? 0 then Z.max (i + n) 0 else Z.min i n.

(** [l[start:stop]] *)
Definition py_slice {A} (l : list A) (start stop : Z) : list A :=
  let n := Z.of_nat (length l) in
  let lo := clip_index n start in
  let hi := clip_index n stop in
  take (Z.to_nat (hi - lo)) (drop (Z.to_nat lo) l).

(** [df.iloc[start:stop]] *)
Definition iloc (df : DataFrame) (start stop : Z) : DataFrame :=
  mkFrame (columns df) (py_slice (rows df) start stop).

(** [show_grid(df)]; [entry] is what the user types in the page box. *)
Definition show_grid (df : pyval) (entry : Z) : M unit :=
  match df with
  | PFrame d =>
      let page_size := 5 in
      let total_pages := len d `div` page_size in
      do page_number <-
        st_number_input "Page Number" 1 (total_pages + 1) 1 1 entry ;;
      let start_idx := (page_number - 1) * page_size in
      let end_idx := start_idx + page_size in
      st_dataframe (iloc d start_idx end_idx)
  | _ => raise (mkExn ValueError "Input must be a Pandas DataFrame.")
  end.

(** [show_result(df, title)] *)
Definition show_result (df title : pyval) (entry : Z) : M unit :=
  match df with
  | PFrame _ =>
      match title with
      | PStr t => run st_write t ;; show_grid df entry
      | _ => raise (mkExn ValueError "title must be a string.")
      end
  | _ => raise (mkExn ValueError "df must be a Pandas DataFrame.")
  end.

(* ===================================================================== *)
(** ** The result cache                                                   *)
(* ===================================================================== *)

(** [cache_df(df_name, df)].  The handler of the [try] names [logging],
    which the script never imports, so entering it raises [NameError]. *)
Definition cache_df (df_name df : pyval) : M unit :=
  match df_name with
  | PStr name =>
      match df with
      | PFrame d =>
          try_except
            (do present <- session_contains name ;;
             if negb present then session_assign name d else ret tt)
            (fun _ => raise (mkExn NameError "name 'logging' is not defined"))
      | _ => raise (mkExn ValueError "df must be a Pandas DataFrame.")
      end
  | _ => raise (mkExn ValueError "df_name must be a string.")
  end.

(** A run of [cache_df] calls, one after the other; a call that raises
    leaves the process as it is (see [cache_df_raise_keeps]) and the run
    goes on from there. *)
Fixpoint cache_all (calls : list (pyval * pyval)) (w : world) : world :=
  match calls with
  | [] => w
  | (k, v) :: rest => cache_all rest (snd (cache_df k v w))
  end.

(* ===================================================================== *)
(** ** The executor                                                       *)
(* ===================================================================== *)

Section Executor.

Variable format_other : pyval -> string.

(** [session.sql(query).to_pandas()]: the warehouse answers a query
    with a table or raises. *)
Variable warehouse : string -> result DataFrame.

Definition session_sql (query : string) : M DataFrame :=
  run effect (log_query query) ;; lift (warehouse query).

(** The body of [fetch_data]. *)
Definition fetch_data_body (query : pyval) : M DataFrame :=
  match query with
  | PStr q =>
      try_except
        (session_sql q)
        (fun e =>
           run st_error ("Error executing query: " +:+ exn_msg e) ;;
           ret empty_frame)
  | _ => raise (mkExn ValueError "Query must be a string.")
  end.

(** [@st.cache_data]: a call whose argument was seen before returns the
    stored table without running the body; a body that returns has its
    table stored, one that raises stores nothing.  Only [str] arguments
    ever get stored, as the body raises on all others. *)
Definition fetch_data (query : pyval) : M DataFrame :=
  fun w =>
    match query with
    | PStr q =>
        match fetch_memo w !! q with
        | Some df => (Ok df, w)
        | None =>
            match fetch_data_body query w with
            | (Ok df, w') => (Ok df, set_memo (insert q df) w')
            | failed => failed
            end
        end
    | _ => fetch_data_body query w
    end.

(** [get_query_result(query_list, result_query)] *)
Definition get_query_result (query_list result_query : pyval) : M DataFrame :=
  do query <- lift (Composer.build_CTE format_other query_list result_query) ;;
  fetch_data (PStr query).

End Executor.

(* ===================================================================== *)
(** ** The composer and the pager as the design document words them       *)
(* ===================================================================== *)

(** A well-formed fragment [(alias, body)] as the value handed over. *)
Definition fragment (ab : pyval * pyval) : pyval := PTuple [ab.1; ab.2].

(** Exactly the arguments [build_seq_qrys] lets through its guard. *)
Definition accepts_seq (v : pyval) : bool :=
  match v with
  | PList items => forallb is_pair items
  | _ => false
  end.

(** "alias AS (body)" *)
Definition spec_fragment (fmt : pyval -> string) (ab : pyval * pyval) : string :=
  String.append (Composer.py_format fmt ab.1)
    (String.append " AS ("
       (String.append (Composer.py_format fmt ab.2) ")")).

(** ["WITH " + composeSequence(fragments) + " " + finalQuery + ";"], the
    sequence being the fragments joined with [","]. *)
Definition spec_CTE (fmt : pyval -> string) (frags : list (pyval * pyval))
    (final : string) : string :=
  String.append "WITH "
    (String.append (String.concat "," (map (spec_fragment fmt) frags))
       (String.append " " (String.append final ";"))).

(** The rows of [l] at the positions [lo], [lo+1], ..., [hi-1], as far as
    they exist: the slice [[lo, hi)]. *)
Definition rows_between {A} (lo hi : Z) (l : list A) : list A :=
  omap (fun i => l !! i) (seq (Z.to_nat lo) (Z.to_nat (hi - lo))).

(** What a run put on the page: the bounds of the page boxes and the
    tables shown. *)
Definition page_boxes (w : world) : list (Z * Z) :=
  omap (fun ev => match ev with
                  | UiNumberInput _ lo hi _ _ => Some (lo, hi)
                  | _ => None
                  end) (ui_log w).
Definition shown (w : world) : list DataFrame :=
  omap (fun ev => match ev with UiDataframe df => Some df | _ => None end)
       (ui_log w).

(** A fresh process. *)
Definition fresh : world := mkWorld ∅ ∅ [] [].

(** A table of [n] one-cell rows numbered [0 .. n-1]. *)
Definition numbered (n : nat) : DataFrame :=
  mkFrame ["N"] (map (fun i => [CInt (Z.of_nat i)]) (seq 0 n)).

(* ===================================================================== *)
(** ** The statements of the script that use the helpers                  *)
(* ===================================================================== *)

(** [isinstance(v, pd.DataFrame)] *)
Definition is_DataFrame (v : pyval) : bool :=
  match v with PFrame _ => true | _ => false end.

Section Loading.

Variable format_other : pyval -> string.
Variable warehouse : string -> result DataFrame.

(** [cache_df(name, get_query_result(query_list, result_query))], the
    statement the script runs once per question.  The argument is
    evaluated first: the query runs before [cache_df] looks at the
    session store. *)
Definition load_result (name query_list result_query : pyval) : M unit :=
  do df <- get_query_result format_other warehouse query_list result_query ;;
  cache_df name (PFrame df).

End Loading.

(** [a + b] on two lists, as in [question1_list_qrys + [...]]. *)
Definition list_add (a b : list pyval) : pyval := PList (a ++ b).

(** The page numbers the page box of a table lets through:
    [1 .. total_pages + 1]. *)
Definition page_numbers (d : DataFrame) : list Z :=
  map (fun i => Z.of_nat i + 1) (seq 0 (Z.to_nat (len d `div` 5 + 1))).

(** The rows [show_grid] puts on a fresh page when [entry] is typed. *)
Definition displayed (d : DataFrame) (entry : Z) : list (list cell) :=
  flat_map rows (shown (show_grid (PFrame d) entry fresh).2).

(* ===================================================================== *)
(** * Properties of the composer                                          *)
(* ===================================================================== *)

Section ComposerFacts.

Variable fmt : pyval -> string.

Lemma str_join_concat sep parts :
  Composer.str_join sep parts = String.concat sep parts.
Proof.
  induction parts as [|p rest IH]; [reflexivity|].
  destruct rest as [|p' rest]; [reflexivity|].
  change (Composer.str_join sep (p :: p' :: rest))
    with (p +:+ sep +:+ Composer.str_join sep (p' :: rest)).
  by rewrite IH.
Qed.

Lemma build_qry_fragment ab :
  Composer.build_qry fmt (fragment ab) = Ok (spec_fragment fmt ab).
Proof. by destruct ab. Qed.

Lemma build_qry_is_pair v :
  raised (Composer.build_qry fmt v) = negb (is_pair v).
Proof.
  destruct v as [| | | |items|items|]; try reflexivity.
  destruct items as [|a [|b [|c rest]]]; reflexivity.
Qed.

Lemma is_pair_fragment ab : is_pair (fragment ab) = true.
Proof. reflexivity. Qed.

Lemma is_pair_inv v : is_pair v = true -> exists ab, v = fragment ab.
Proof.
  destruct v as [| | | |items|items|]; try discriminate.
  destruct items as [|a [|b [|c rest]]]; try discriminate.
  intros _. by exists (a, b).
Qed.

Lemma forallb_is_pair_fragments frags :
  forallb is_pair (map fragment frags) = true.
Proof. induction frags as [|ab rest IH]; simpl; auto. Qed.

Lemma forallb_is_pair_inv items :
  forallb is_pair items = true -> exists frags, items = map fragment frags.
Proof.
  induction items as [|v rest IH]; simpl.
  - intros _. by exists [].
  - intros H. apply andb_true_iff in H as [Hv Hrest].
    destruct (is_pair_inv v Hv) as [ab ->].
    destruct (IH Hrest) as [frags ->].
    by exists (ab :: frags).
Qed.

Lemma build_each_fragments frags :
  Composer.build_each fmt (map fragment frags)
  = Ok (map (spec_fragment fmt) frags).
Proof.
  induction frags as [|ab rest IH]; [reflexivity|].
  cbn [map Composer.build_each].
  by rewrite build_qry_fragment, IH.
Qed.

Lemma build_seq_qrys_fragments frags :
  Composer.build_seq_qrys fmt (PList (map fragment frags))
  = Ok (String.concat "," (map (spec_fragment fmt) frags)).
Proof.
  unfold Composer.build_seq_qrys.
  by rewrite forallb_is_pair_fragments, build_each_fragments, str_join_concat.
Qed.

Lemma build_CTE_fragments frags final :
  Composer.build_CTE fmt (PList (map fragment frags)) (PStr final)
  = Ok (spec_CTE fmt frags final).
Proof.
  unfold Composer.build_CTE, spec_CTE.
  by rewrite build_seq_qrys_fragments.
Qed.

Lemma build_seq_qrys_accepts v :
  raised (Composer.build_seq_qrys fmt v) = negb (accepts_seq v).
Proof.
  destruct v as [| | | | |items|]; try reflexivity.
  simpl. destruct (forallb is_pair items) eqn:Hall; [|reflexivity].
  destruct (forallb_is_pair_inv items Hall) as [frags ->].
  by rewrite build_each_fragments.
Qed.

End ComposerFacts.

(** C1.  For every list of well-formed fragments and every final query
    string, [build_CTE] returns exactly "WITH ", the fragments rendered as
    "alias AS (body)" and joined with ",", one space, the final query and
    ";".  String aliases and bodies are rendered as themselves, and
    [build_CTE([("A","SELECT 1")], "SELECT * FROM A")] is
    "WITH A AS (SELECT 1) SELECT * FROM A;". *)
Theorem build_CTE_exact :
  forall (fmt : pyval -> string),
    (forall (frags : list (pyval * pyval)) (final : string),
        Composer.build_CTE fmt (PList (map fragment frags)) (PStr final)
        = Ok (spec_CTE fmt frags final))
    /\ (forall (alias body : string),
          spec_fragment fmt (PStr alias, PStr body)
          = alias +:+ " AS (" +:+ body +:+ ")")
    /\ Composer.build_CTE fmt (PList [PTuple [PStr "A"; PStr "SELECT 1"]])
         (PStr "SELECT * FROM A")
       = Ok "WITH A AS (SELECT 1) SELECT * FROM A;".
Proof.
  intros fmt. split; [|split; reflexivity].
  apply build_CTE_fragments.
Qed.

(** C2, as the code has it: on the empty list [build_seq_qrys] returns
    the empty string and [build_CTE] returns a statement with nothing
    between "WITH " and the final query. *)
Lemma build_CTE_empty_list_returns :
  (forall fmt, Composer.build_seq_qrys fmt (PList []) = Ok "")
  /\ (forall fmt, Composer.build_CTE fmt (PList []) (PStr "SELECT 1")
                  = Ok "WITH  SELECT 1;").
Proof. split; reflexivity. Qed.

(** C2, amended.  [build_seq_qrys] raises [ValueError] exactly when its
    argument is not a list whose entries are all 2-tuples; the empty list
    passes and gives the empty string, so [build_CTE([], final)] returns
    "WITH  final;" for every string [final], and [build_CTE] raises that
    same [ValueError] on a rejected list. *)
Theorem build_seq_qrys_guard :
  forall (fmt : pyval -> string) (v : pyval) (final : string),
    (if accepts_seq v
     then raised (Composer.build_seq_qrys fmt v) = false
     else Composer.build_seq_qrys fmt v
          = Raise (mkExn ValueError
              "Input must be a list of tuples with two elements each: (alias, query)."))
    /\ (if accepts_seq v
        then raised (Composer.build_CTE fmt v (PStr final)) = false
        else Composer.build_CTE fmt v (PStr final)
             = Raise (mkExn ValueError
                 "Input must be a list of tuples with two elements each: (alias, query)."))
    /\ accepts_seq (PList []) = true
    /\ Composer.build_seq_qrys fmt (PList []) = Ok ""
    /\ Composer.build_CTE fmt (PList []) (PStr final)
       = Ok ("WITH  " +:+ final +:+ ";").
Proof.
  intros fmt v final.
  assert (Hseq : if accepts_seq v
     then raised (Composer.build_seq_qrys fmt v) = false
     else Composer.build_seq_qrys fmt v
          = Raise (mkExn ValueError
              "Input must be a list of tuples with two elements each: (alias, query).")).
  { destruct (accepts_seq v) eqn:Hacc.
    - by rewrite build_seq_qrys_accepts, Hacc.
    - destruct v as [| | | | |items|]; try reflexivity.
      simpl in Hacc. unfold Composer.build_seq_qrys. by rewrite Hacc. }
  split; [exact Hseq|]. split; [|repeat split].
  unfold Composer.build_CTE.
  destruct (accepts_seq v); [|by rewrite Hseq].
  by destruct (Composer.build_seq_qrys fmt v).
Qed.

(** C4, as the code has it: an empty alias and a body that is not a
    string are both formatted into a fragment. *)
Lemma build_qry_formats_any_pair :
  (forall fmt, Composer.build_qry fmt (PTuple [PStr ""; PStr "SELECT 1"])
               = Ok " AS (SELECT 1)")
  /\ (forall fmt, Composer.build_qry fmt (PTuple [PStr "A"; PInt 7])
                  = Ok ("A AS (" +:+ fmt (PInt 7) +:+ ")")).
Proof. split; reflexivity. Qed.

(** C4, amended.  [build_qry] raises [ValueError] exactly when its
    argument is not a tuple of two elements; every 2-tuple, whatever its
    alias and body are, is formatted as "alias AS (body)". *)
Theorem build_qry_guard :
  forall (fmt : pyval -> string) (v alias body : pyval),
    (if is_pair v
     then raised (Composer.build_qry fmt v) = false
     else Composer.build_qry fmt v
          = Raise (mkExn ValueError
              "Input must be a tuple with two elements: (alias, query)."))
    /\ Composer.build_qry fmt (PTuple [alias; body])
       = Ok (Composer.py_format fmt alias +:+ " AS ("
             +:+ Composer.py_format fmt body +:+ ")").
Proof.
  intros fmt v alias body. split; [|reflexivity].
  destruct v as [| | | |items|items|]; try reflexivity.
  destruct items as [|a [|b [|c rest]]]; reflexivity.
Qed.

(** C5, as the code has it: an empty final query is composed like any
    other string. *)
Lemma build_CTE_empty_final_returns :
  (forall fmt, Composer.build_CTE fmt (PList [PTuple [PStr "A"; PStr "SELECT 1"]])
                 (PStr "")
               = Ok "WITH A AS (SELECT 1) ;")
  /\ (forall fmt, raised (Composer.build_CTE fmt
                    (PList [PTuple [PStr "A"; PStr "SELECT 1"]]) (PStr ""))
                  = false).
Proof. split; reflexivity. Qed.

(** C5, amended.  [build_CTE] raises exactly when the final query is not
    a string or the fragment list is rejected; a final query that is not
    a string gives [ValueError] "return_qry must be a string." whatever
    the list is, and the empty string is composed as "WITH ... ;". *)
Theorem build_CTE_guard :
  forall (fmt : pyval -> string) (list_queries return_qry : pyval)
         (frags : list (pyval * pyval)),
    raised (Composer.build_CTE fmt list_queries return_qry)
    = negb (is_str return_qry) || negb (accepts_seq list_queries)
    /\ (if is_str return_qry
        then True
        else Composer.build_CTE fmt list_queries return_qry
             = Raise (mkExn ValueError "return_qry must be a string."))
    /\ Composer.build_CTE fmt (PList (map fragment frags)) (PStr "")
       = Ok ("WITH " +:+ String.concat "," (map (spec_fragment fmt) frags)
             +:+ " ;").
Proof.
  intros fmt lq rq frags. split; [|split].
  - destruct rq; try reflexivity.
    unfold Composer.build_CTE. simpl is_str. simpl negb at 1.
    rewrite orb_false_l, <- (build_seq_qrys_accepts fmt).
    by destruct (Composer.build_seq_qrys fmt lq).
  - by destruct rq.
  - unfold Composer.build_CTE. by rewrite build_seq_qrys_fragments.
Qed.

(* ===================================================================== *)
(** * Properties of the pager                                             *)
(* ===================================================================== *)

Section PagerFacts.

Context {A : Type}.
Implicit Types l : list A.

Lemma omap_lookup_seq l (a k : nat) :
  omap (fun i => l !! i) (seq a k) = take k (drop a l).
Proof.
  revert a. induction k as [|k IH]; intros a; [reflexivity|].
  cbn [seq].
  change (omap (fun i => l !! i) (a :: seq (S a) k))
    with (match l !! a with
          | Some x => x :: omap (fun i => l !! i) (seq (S a) k)
          | None => omap (fun i => l !! i) (seq (S a) k)
          end).
  rewrite IH.
  destruct (l !! a) as [x|] eqn:Hx.
  - by rewrite (drop_S l x a Hx).
  - apply lookup_ge_None in Hx.
    rewrite !drop_ge by lia. by rewrite !take_nil.
Qed.

Lemma rows_between_take_drop l (lo hi : Z) :
  rows_between lo hi l
  = take (Z.to_nat (hi - lo)) (drop (Z.to_nat lo) l).
Proof. apply omap_lookup_seq. Qed.

Lemma py_slice_between l (lo hi : Z) :
  0 <= lo <= hi -> py_slice l lo hi = rows_between lo hi l.
Proof.
  intros Hb. rewrite rows_between_take_drop.
  unfold py_slice, clip_index.
  destruct (Z.ltb_spec lo 0); [lia|].
  destruct (Z.ltb_spec hi 0); [lia|].
  destruct (Z_lt_le_dec lo (Z.of_nat (length l))) as [Hlo|Hlo].
  - rewrite (Z.min_l lo) by lia.
    destruct (Z_lt_le_dec hi (Z.of_nat (length l))) as [Hhi|Hhi].
    + by rewrite (Z.min_l hi) by lia.
    + rewrite (Z.min_r hi) by lia.
      rewrite !take_ge; [reflexivity| |]; rewrite length_drop; lia.
  - rewrite !drop_ge by lia. by rewrite !take_nil.
Qed.

Lemma rows_between_length l (lo hi : Z) :
  0 <= lo <= hi ->
  Z.of_nat (length (rows_between lo hi l))
  = Z.max 0 (Z.min hi (Z.of_nat (length l)) - lo).
Proof.
  intros Hb. rewrite rows_between_take_drop, length_take, length_drop. lia.
Qed.

Lemma rows_between_whole l (hi : Z) :
  Z.of_nat (length l) <= hi -> rows_between 0 hi l = l.
Proof.
  intros Hb. rewrite rows_between_take_drop. simpl drop.
  apply take_ge. lia.
Qed.

Lemma rows_between_beyond l (lo hi : Z) :
  Z.of_nat (length l) <= lo -> rows_between lo hi l = [].
Proof.
  intros Hb. rewrite rows_between_take_drop.
  rewrite drop_ge by lia. apply take_nil.
Qed.

End PagerFacts.

Lemma len_nonneg d : 0 <= len d.
Proof. unfold len. lia. Qed.

Lemma total_pages_nonneg d : 0 <= len d `div` 5.
Proof. apply Z.div_pos; [apply len_nonneg | lia]. Qed.

(** One run of [show_grid] on a table: the page box is drawn with the
    bounds [1 .. total_pages + 1], the entry is committed when it lies
    within them, and the slice of the committed page is shown. *)
Lemma show_grid_run d entry w :
  show_grid (PFrame d) entry w
  = (Ok (),
     emit (UiDataframe
             (iloc d
                ((((if (1 <=? entry) && (entry <=? len d `div` 5 + 1)
                    then entry else 1) - 1) * 5))
                ((((if (1 <=? entry) && (entry <=? len d `div` 5 + 1)
                    then entry else 1) - 1) * 5 + 5))))
       (emit (UiNumberInput "Page Number" 1 (len d `div` 5 + 1) 1 1) w)).
Proof.
  unfold show_grid, st_number_input.
  pose proof (total_pages_nonneg d) as Htp.
  destruct (Z.ltb_spec 1 1); [lia|].
  destruct (Z.ltb_spec (len d `div` 5 + 1) 1); [lia|].
  reflexivity.
Qed.

Lemma show_grid_admissible d entry w :
  1 <= entry <= len d `div` 5 + 1 ->
  show_grid (PFrame d) entry w
  = (Ok (),
     emit (UiDataframe
             (mkFrame (columns d)
                (rows_between ((entry - 1) * 5) (entry * 5) (rows d))))
       (emit (UiNumberInput "Page Number" 1 (len d `div` 5 + 1) 1 1) w)).
Proof.
  intros [Hlo Hhi]. rewrite show_grid_run.
  destruct (Z.leb_spec 1 entry); [|lia].
  destruct (Z.leb_spec entry (len d `div` 5 + 1)); [|lia].
  cbn [andb]. unfold iloc.
  rewrite py_slice_between by lia.
  by replace ((entry - 1) * 5 + 5) with (entry * 5) by lia.
Qed.

Lemma show_grid_refused d entry w :
  ~ (1 <= entry <= len d `div` 5 + 1) ->
  show_grid (PFrame d) entry w = show_grid (PFrame d) 1 w.
Proof.
  intros Hout. rewrite !show_grid_run.
  assert (Hentry : (if (1 <=? entry) && (entry <=? len d `div` 5 + 1)
                    then entry else 1) = 1).
  { destruct (Z.leb_spec 1 entry), (Z.leb_spec entry (len d `div` 5 + 1));
      cbn [andb]; try reflexivity; lia. }
  assert (Hone : (if (1 <=? 1) && (1 <=? len d `div` 5 + 1)
                  then 1 else 1) = 1)
    by (by destruct ((1 <=? 1) && (1 <=? len d `div` 5 + 1))).
  by rewrite Hentry, Hone.
Qed.

Lemma page_boxes_emit_box label lo hi step value w :
  page_boxes (emit (UiNumberInput label lo hi step value) w)
  = page_boxes w ++ [(lo, hi)].
Proof. unfold page_boxes, emit. cbn [ui_log]. by rewrite omap_app. Qed.

Lemma page_boxes_emit_frame df w :
  page_boxes (emit (UiDataframe df) w) = page_boxes w.
Proof.
  unfold page_boxes, emit. cbn [ui_log]. rewrite omap_app. simpl.
  apply app_nil_r.
Qed.

Lemma shown_emit_box label lo hi step value w :
  shown (emit (UiNumberInput label lo hi step value) w) = shown w.
Proof.
  unfold shown, emit. cbn [ui_log]. rewrite omap_app. simpl.
  apply app_nil_r.
Qed.

Lemma shown_emit_frame df w :
  shown (emit (UiDataframe df) w) = shown w ++ [df].
Proof. unfold shown, emit. cbn [ui_log]. by rewrite omap_app. Qed.

Lemma show_grid_page_box d entry w :
  page_boxes (show_grid (PFrame d) entry w).2
  = page_boxes w ++ [(1, len d `div` 5 + 1)].
Proof.
  rewrite show_grid_run. cbn [snd].
  by rewrite page_boxes_emit_frame, page_boxes_emit_box.
Qed.

(** C7.  For every table, [show_grid] draws the page box with the bounds
    [1 .. total_pages + 1], where [total_pages = floor(rowCount / 5)];
    a page number within these bounds is accepted and exactly the rows
    [(page-1)*5 .. page*5 - 1] are shown; whatever is typed, the page
    shown is one within the bounds; and when [rowCount] is a multiple of
    5, page [total_pages + 1] is accepted and shows no row. *)
Theorem show_grid_pages :
  forall (d : DataFrame) (entry : Z) (w : world),
    (1 <= entry <= len d `div` 5 + 1 ->
     show_grid (PFrame d) entry w
     = (Ok (),
        emit (UiDataframe
                (mkFrame (columns d)
                   (rows_between ((entry - 1) * 5) (entry * 5) (rows d))))
          (emit (UiNumberInput "Page Number" 1 (len d `div` 5 + 1) 1 1) w)))
    /\ page_boxes (show_grid (PFrame d) entry w).2
       = page_boxes w ++ [(1, len d `div` 5 + 1)]
    /\ (exists page : Z,
          1 <= page <= len d `div` 5 + 1
          /\ shown (show_grid (PFrame d) entry w).2
             = shown w
               ++ [mkFrame (columns d)
                     (rows_between ((page - 1) * 5) (page * 5) (rows d))])
    /\ (len d `mod` 5 = 0 ->
        show_grid (PFrame d) (len d `div` 5 + 1) w
        = (Ok (),
           emit (UiDataframe (mkFrame (columns d) []))
             (emit (UiNumberInput "Page Number" 1 (len d `div` 5 + 1) 1 1) w))).
Proof.
  intros d entry w.
  pose proof (total_pages_nonneg d) as Htp.
  split; [apply show_grid_admissible|].
  split.
  { apply show_grid_page_box. }
  split.
  { destruct (decide (1 <= entry <= len d `div` 5 + 1)) as [Hin|Hout].
    - exists entry. split; [exact Hin|].
      rewrite (show_grid_admissible d entry w Hin). cbn [snd].
      by rewrite shown_emit_frame, shown_emit_box.
    - exists 1. split; [lia|].
      rewrite (show_grid_refused d entry w Hout).
      rewrite (show_grid_admissible d 1 w) by lia. cbn [snd].
      by rewrite shown_emit_frame, shown_emit_box. }
  intros Hmod.
  rewrite show_grid_admissible by lia.
  rewrite rows_between_beyond; [reflexivity|].
  pose proof (Z.div_mod (len d) 5 ltac:(lia)) as Hdm.
  unfold len in *. lia.
Qed.

Lemma show_grid_pages_witness :
  (1 <= 3 <= len (numbered 10) `div` 5 + 1)
  /\ len (numbered 10) `mod` 5 = 0
  /\ show_grid (PFrame (numbered 10)) 3 fresh
     = (Ok (),
        emit (UiDataframe (mkFrame ["N"] []))
          (emit (UiNumberInput "Page Number" 1 3 1 1) fresh)).
Proof.
  assert (Hin : 1 <= 3 <= len (numbered 10) `div` 5 + 1)
    by (vm_compute; split; discriminate).
  split; [exact Hin|]. split; [reflexivity|].
  destruct (show_grid_pages (numbered 10) 3 fresh) as (Hrun & _).
  exact (Hrun Hin).
Defined.

(** C10.  For every table with fewer than 5 rows, the empty one
    included, [total_pages] is 0, the only page number within the bounds
    is 1, the slice [0 .. 4] is the whole table, and [show_grid] returns
    after showing the whole table, whatever is typed in the page box. *)
Theorem show_grid_small_table :
  forall (d : DataFrame) (entry : Z) (w : world),
    len d < 5 ->
    len d `div` 5 = 0
    /\ (forall page : Z, 1 <= page <= len d `div` 5 + 1 -> page = 1)
    /\ rows_between 0 5 (rows d) = rows d
    /\ show_grid (PFrame d) entry w
       = (Ok (),
          emit (UiDataframe d) (emit (UiNumberInput "Page Number" 1 1 1 1) w)).
Proof.
  intros d entry w Hsmall.
  pose proof (len_nonneg d) as Hlen.
  assert (Htp : len d `div` 5 = 0) by (apply Z.div_small; lia).
  assert (Hall : rows_between 0 5 (rows d) = rows d)
    by (apply rows_between_whole; unfold len in *; lia).
  split; [exact Htp|]. split; [intros page; lia|]. split; [exact Hall|].
  assert (Hone : show_grid (PFrame d) entry w = show_grid (PFrame d) 1 w).
  { destruct (decide (1 <= entry <= len d `div` 5 + 1)) as [Hin|Hout].
    - by replace entry with 1 by lia.
    - by apply show_grid_refused. }
  rewrite Hone, show_grid_admissible by lia.
  rewrite Htp. change ((1 - 1) * 5) with 0. change (1 * 5) with 5.
  rewrite Hall. by destruct d.
Qed.

Lemma show_grid_small_table_witness :
  len (numbered 3) < 5
  /\ show_grid (PFrame (numbered 3)) 7 fresh
     = (Ok (),
        emit (UiDataframe (numbered 3))
          (emit (UiNumberInput "Page Number" 1 1 1 1) fresh)).
Proof.
  assert (Hsmall : len (numbered 3) < 5) by reflexivity.
  split; [exact Hsmall|].
  destruct (show_grid_small_table (numbered 3) 7 fresh Hsmall)
    as (_ & _ & _ & Hrun).
  exact Hrun.
Defined.

(** C3, as the code has it: for the 12-row table the page box is drawn
    with the bounds [1 .. 3], so 4 lies outside them; typing 4 is not
    taken up and the five rows of page 1 stay on the page. *)
Lemma show_grid_twelve_rows_page_four :
  page_boxes (show_grid (PFrame (numbered 12)) 4 fresh).2 = [(1, 3)]
  /\ (4 <=? 3) = false
  /\ shown (show_grid (PFrame (numbered 12)) 4 fresh).2
     = [numbered 5]
  /\ length (rows (numbered 5)) = 5%nat.
Proof. repeat split; reflexivity. Qed.

(** C3, amended.  For a 12-row table [total_pages] is 2 and the page box
    has the bounds [1 .. 3]; pages 1, 2 and 3 are accepted and show 5, 5
    and 2 rows; page 4 is outside the bounds (the rows [15 .. 19] it
    would address do not exist, so that slice has no row). *)
Theorem show_grid_twelve_rows :
  forall (d : DataFrame) (entry : Z) (w : world),
    len d = 12 ->
    len d `div` 5 = 2
    /\ page_boxes (show_grid (PFrame d) entry w).2 = page_boxes w ++ [(1, 3)]
    /\ (forall page : Z,
          1 <= page <= 3 ->
          show_grid (PFrame d) page w
          = (Ok (),
             emit (UiDataframe
                     (mkFrame (columns d)
                        (rows_between ((page - 1) * 5) (page * 5) (rows d))))
               (emit (UiNumberInput "Page Number" 1 3 1 1) w)))
    /\ length (rows_between 0 5 (rows d)) = 5%nat
    /\ length (rows_between 5 10 (rows d)) = 5%nat
    /\ length (rows_between 10 15 (rows d)) = 2%nat
    /\ ~ (1 <= 4 <= len d `div` 5 + 1)
    /\ length (py_slice (rows d) 15 20) = 0%nat.
Proof.
  intros d entry w Hlen.
  assert (Htp : len d `div` 5 = 2) by (by rewrite Hlen).
  assert (Hrows : Z.of_nat (length (rows d)) = 12) by exact Hlen.
  split; [exact Htp|]. split.
  { by rewrite show_grid_page_box, Htp. }
  split.
  { intros page Hpage.
    rewrite show_grid_admissible by (rewrite Htp; lia).
    by rewrite Htp. }
  repeat split.
  - pose proof (rows_between_length (rows d) 0 5 ltac:(lia)). lia.
  - pose proof (rows_between_length (rows d) 5 10 ltac:(lia)). lia.
  - pose proof (rows_between_length (rows d) 10 15 ltac:(lia)). lia.
  - rewrite Htp. lia.
  - rewrite py_slice_between by lia.
    pose proof (rows_between_length (rows d) 15 20 ltac:(lia)). lia.
Qed.

Lemma show_grid_twelve_rows_witness :
  len (numbered 12) = 12
  /\ show_grid (PFrame (numbered 12)) 3 fresh
     = (Ok (),
        emit (UiDataframe (mkFrame ["N"] [[CInt 10]; [CInt 11]]))
          (emit (UiNumberInput "Page Number" 1 3 1 1) fresh)).
Proof.
  assert (Hlen : len (numbered 12) = 12) by reflexivity.
  split; [exact Hlen|].
  destruct (show_grid_twelve_rows (numbered 12) 3 fresh Hlen)
    as (_ & _ & Hrun & _).
  exact (Hrun 3 ltac:(lia)).
Defined.

(* ===================================================================== *)
(** * Properties of the result cache                                      *)
(* ===================================================================== *)

(** With a string key and a table, [cache_df] returns; it stores the
    table when the key is free and leaves the process as it is when the
    key is taken.  The handler of its [try] is never entered. *)
Lemma cache_df_run name d w :
  cache_df (PStr name) (PFrame d) w
  = (Ok (),
     match session_state w !! name with
     | Some _ => w
     | None => set_session (insert name d) w
     end).
Proof.
  unfold cache_df, try_except, bind, session_contains, session_assign,
    effect, ret.
  destruct (session_state w !! name) as [old|] eqn:Hk.
  - rewrite bool_decide_eq_true_2 by eauto. reflexivity.
  - rewrite bool_decide_eq_false_2 by (intros [? ?]; discriminate).
    reflexivity.
Qed.

(** A call that raises leaves the process as it is. *)
Lemma cache_df_raise_keeps k v w :
  raised (cache_df k v w).1 = true -> (cache_df k v w).2 = w.
Proof.
  destruct k as [| | |name| | |]; try reflexivity.
  destruct v as [| | | | | |d]; try reflexivity.
  rewrite cache_df_run. discriminate.
Qed.

Lemma cache_df_keeps k v w key t :
  session_state w !! key = Some t ->
  session_state (cache_df k v w).2 !! key = Some t.
Proof.
  intros Hkey.
  destruct k as [| | |name| | |]; try exact Hkey.
  destruct v as [| | | | | |d]; try exact Hkey.
  rewrite cache_df_run. cbn [snd].
  destruct (session_state w !! name) as [old|] eqn:Hname; [exact Hkey|].
  unfold set_session. cbn [session_state].
  rewrite lookup_insert_ne; [exact Hkey|].
  intros ->. congruence.
Qed.

Lemma cache_all_keeps calls w key t :
  session_state w !! key = Some t ->
  session_state (cache_all calls w) !! key = Some t.
Proof.
  revert w. induction calls as [|[k v] rest IH]; intros w Hkey; [exact Hkey|].
  cbn [cache_all]. apply IH. by apply cache_df_keeps.
Qed.

(** C8.  The result cache is write-once per key: the first
    [cache_df(k, t1)] on a free key stores [t1], a following
    [cache_df(k, t2)] changes nothing, so the cache maps [k] to [t1];
    and a key that is present keeps its table through every later run
    of [cache_df] calls. *)
Theorem cache_df_write_once :
  forall (k : string) (t1 t2 : DataFrame) (w : world),
    (session_state w !! k = None ->
     cache_df (PStr k) (PFrame t1) w = (Ok (), set_session (insert k t1) w)
     /\ session_state
          (cache_all [(PStr k, PFrame t1); (PStr k, PFrame t2)] w) !! k
        = Some t1)
    /\ cache_df (PStr k) (PFrame t2) (cache_df (PStr k) (PFrame t1) w).2
       = (Ok (), (cache_df (PStr k) (PFrame t1) w).2)
    /\ (forall (t : DataFrame) (calls : list (pyval * pyval)),
          session_state w !! k = Some t ->
          session_state (cache_all calls w) !! k = Some t).
Proof.
  intros k t1 t2 w.
  assert (Hfirst : is_Some (session_state (cache_df (PStr k) (PFrame t1) w).2 !! k)).
  { rewrite cache_df_run. cbn [snd].
    destruct (session_state w !! k) as [old|] eqn:Hk; [by rewrite Hk|].
    unfold set_session. cbn [session_state]. rewrite lookup_insert_eq. eauto. }
  split; [|split].
  - intros Hfree. split; [by rewrite cache_df_run, Hfree|].
    cbn [cache_all]. apply cache_df_keeps.
    rewrite cache_df_run, Hfree. cbn [snd].
    unfold set_session. cbn [session_state]. apply lookup_insert_eq.
  - rewrite (cache_df_run k t2). destruct Hfirst as [t Ht]. by rewrite Ht.
  - intros t calls. apply cache_all_keeps.
Qed.

Lemma cache_df_write_once_witness :
  session_state fresh !! "k" = None
  /\ session_state
       (cache_all [(PStr "k", PFrame (numbered 1));
                   (PStr "k", PFrame (numbered 2))] fresh) !! "k"
     = Some (numbered 1).
Proof.
  assert (Hfree : session_state fresh !! "k" = None) by reflexivity.
  split; [exact Hfree|].
  destruct (cache_df_write_once "k" (numbered 1) (numbered 2) fresh)
    as (Hwrite & _).
  exact (proj2 (Hwrite Hfree)).
Defined.

(* ===================================================================== *)
(** * Properties of the executor                                          *)
(* ===================================================================== *)

Section ExecutorFacts.

Variable fmt : pyval -> string.
Variable warehouse : string -> result DataFrame.

(** The body on a string whose warehouse call raises an [Exception]:
    the query went out, the error is on the page, the empty table
    comes back. *)
Lemma fetch_data_body_failure q e w :
  warehouse q = Raise e ->
  is_Exception e = true ->
  fetch_data_body warehouse (PStr q) w
  = (Ok empty_frame,
     emit (UiError ("Error executing query: " +:+ exn_msg e))
       (log_query q w)).
Proof.
  intros Hraise Hexn.
  unfold fetch_data_body, try_except, session_sql, bind, effect, lift.
  by rewrite Hraise, Hexn.
Qed.

(** What is not an [Exception] passes through the handler. *)
Lemma fetch_data_body_passes q e w :
  warehouse q = Raise e ->
  is_Exception e = false ->
  fetch_data_body warehouse (PStr q) w = (Raise e, log_query q w).
Proof.
  intros Hraise Hexn.
  unfold fetch_data_body, try_except, session_sql, bind, effect, lift.
  by rewrite Hraise, Hexn.
Qed.

Lemma fetch_data_body_success q df w :
  warehouse q = Ok df ->
  fetch_data_body warehouse (PStr q) w = (Ok df, log_query q w).
Proof.
  intros Hok.
  unfold fetch_data_body, try_except, session_sql, bind, effect, lift.
  by rewrite Hok.
Qed.

(** A stored query is answered from the store: nothing goes out. *)
Lemma fetch_data_hit q df w :
  fetch_memo w !! q = Some df ->
  fetch_data warehouse (PStr q) w = (Ok df, w).
Proof. intros Hhit. unfold fetch_data. by rewrite Hhit. Qed.

Lemma get_query_result_fragments frags final w :
  get_query_result fmt warehouse (PList (map fragment frags)) (PStr final) w
  = fetch_data warehouse (PStr (spec_CTE fmt frags final)) w.
Proof.
  unfold get_query_result, bind, lift.
  by rewrite build_CTE_fragments.
Qed.

End ExecutorFacts.

(** C6.  For every string query that is not in the store and whose
    warehouse call raises an [Exception], [fetch_data] does not raise:
    the error text is put on the page and the empty table is returned;
    so composing any list of fragments and running the statement gives
    the empty table when the warehouse fails on it. *)
Theorem fetch_data_swallows_failure :
  forall (fmt : pyval -> string) (warehouse : string -> result DataFrame)
         (q : string) (e : exn) (w : world),
    fetch_memo w !! q = None ->
    warehouse q = Raise e ->
    is_Exception e = true ->
    fetch_data warehouse (PStr q) w
    = (Ok empty_frame,
       set_memo (insert q empty_frame)
         (emit (UiError ("Error executing query: " +:+ exn_msg e))
            (log_query q w)))
    /\ (forall (frags : list (pyval * pyval)) (final : string),
          q = spec_CTE fmt frags final ->
          get_query_result fmt warehouse
            (PList (map fragment frags)) (PStr final) w
          = (Ok empty_frame,
             set_memo (insert q empty_frame)
               (emit (UiError ("Error executing query: " +:+ exn_msg e))
                  (log_query q w)))).
Proof.
  intros fmt warehouse q e w Hmiss Hraise Hexn.
  assert (Hrun : fetch_data warehouse (PStr q) w
    = (Ok empty_frame,
       set_memo (insert q empty_frame)
         (emit (UiError ("Error executing query: " +:+ exn_msg e))
            (log_query q w)))).
  { unfold fetch_data. rewrite Hmiss.
    by rewrite (fetch_data_body_failure warehouse q e w Hraise Hexn). }
  split; [exact Hrun|].
  intros frags final ->.
  by rewrite get_query_result_fragments.
Qed.

Lemma fetch_data_swallows_failure_witness :
  get_query_result (fun _ => "")
    (fun _ => Raise (mkExn SnowparkSQLException "table A is gone"))
    (PList [PTuple [PStr "A"; PStr "SELECT 1"]]) (PStr "SELECT * FROM A")
    fresh
  = (Ok empty_frame,
     mkWorld ∅ {[ "WITH A AS (SELECT 1) SELECT * FROM A;" := empty_frame ]}
       ["WITH A AS (SELECT 1) SELECT * FROM A;"]
       [UiError "Error executing query: table A is gone"]).
Proof.
  destruct (fetch_data_swallows_failure (fun _ => "")
              (fun _ => Raise (mkExn SnowparkSQLException "table A is gone"))
              "WITH A AS (SELECT 1) SELECT * FROM A;"
              (mkExn SnowparkSQLException "table A is gone")
              fresh eq_refl eq_refl eq_refl) as (_ & Hcomposed).
  exact (Hcomposed [(PStr "A", PStr "SELECT 1")] "SELECT * FROM A" eq_refl).
Defined.

(** C9.  For every argument that is not a string, [fetch_data] raises
    [ValueError] "Query must be a string." and leaves the process as it
    was: no query went to the warehouse. *)
Theorem fetch_data_rejects_non_string :
  forall (warehouse : string -> result DataFrame) (v : pyval) (w : world),
    is_str v = false ->
    fetch_data warehouse v w
    = (Raise (mkExn ValueError "Query must be a string."), w)
    /\ warehouse_log (fetch_data warehouse v w).2 = warehouse_log w.
Proof.
  intros warehouse v w Hv.
  destruct v; try discriminate; split; reflexivity.
Qed.

Lemma fetch_data_rejects_non_string_witness :
  is_str (PInt 7) = false
  /\ fetch_data (fun _ => Ok (numbered 1)) (PInt 7) fresh
     = (Raise (mkExn ValueError "Query must be a string."), fresh).
Proof.
  split; [reflexivity|].
  exact (proj1 (fetch_data_rejects_non_string
                  (fun _ => Ok (numbered 1)) (PInt 7) fresh eq_refl)).
Defined.

(* ===================================================================== *)
(** * Further properties of the composer                                  *)
(* ===================================================================== *)

Lemma string_append_assoc (a b c : string) :
  (a +:+ b) +:+ c = a +:+ (b +:+ c).
Proof.
  induction a as [|ch a IH]; [reflexivity|].
  change (String ch ((a +:+ b) +:+ c) = String ch (a +:+ (b +:+ c))).
  by f_equal.
Qed.

Lemma str_join_cons sep p rest :
  rest <> [] ->
  Composer.str_join sep (p :: rest) = p +:+ sep +:+ Composer.str_join sep rest.
Proof. by destruct rest. Qed.

Lemma str_join_app sep parts1 parts2 :
  parts1 <> [] -> parts2 <> [] ->
  Composer.str_join sep (parts1 ++ parts2)
  = Composer.str_join sep parts1 +:+ sep +:+ Composer.str_join sep parts2.
Proof.
  intros H1 H2. induction parts1 as [|p rest IH]; [done|].
  destruct rest as [|p' rest].
  - simpl app. by rewrite str_join_cons.
  - rewrite <- app_comm_cons.
    rewrite str_join_cons by done.
    rewrite IH by done.
    rewrite (str_join_cons sep p (p' :: rest)) by done.
    by rewrite !string_append_assoc.
Qed.

Lemma build_seq_qrys_join fmt frags :
  Composer.build_seq_qrys fmt (PList (map fragment frags))
  = Ok (Composer.str_join "," (map (spec_fragment fmt) frags)).
Proof.
  rewrite build_seq_qrys_fragments. f_equal.
Qed.

(** X1.  Extending a fragment list, as the script does with
    [question1_list_qrys + [...]], extends the composed text: for two
    non-empty lists of fragments, the sequence of [a + b] is the sequence
    of [a], a comma, and the sequence of [b]; and the statement built
    from [a + b] is "WITH ", that text, a space, the final query and
    ";". *)
Theorem build_seq_qrys_list_add :
  forall (fmt : pyval -> string) (frags1 frags2 : list (pyval * pyval))
         (final : string),
    frags1 <> [] -> frags2 <> [] ->
    exists s1 s2 : string,
      Composer.build_seq_qrys fmt (PList (map fragment frags1)) = Ok s1
      /\ Composer.build_seq_qrys fmt (PList (map fragment frags2)) = Ok s2
      /\ Composer.build_seq_qrys fmt
           (list_add (map fragment frags1) (map fragment frags2))
         = Ok (s1 +:+ "," +:+ s2)
      /\ Composer.build_CTE fmt
           (list_add (map fragment frags1) (map fragment frags2)) (PStr final)
         = Ok ("WITH " +:+ (s1 +:+ "," +:+ s2) +:+ " " +:+ final +:+ ";").
Proof.
  intros fmt frags1 frags2 final H1 H2.
  exists (Composer.str_join "," (map (spec_fragment fmt) frags1)),
         (Composer.str_join "," (map (spec_fragment fmt) frags2)).
  assert (Hadd : Composer.build_seq_qrys fmt
           (list_add (map fragment frags1) (map fragment frags2))
         = Ok (Composer.str_join "," (map (spec_fragment fmt) frags1)
               +:+ "," +:+
               Composer.str_join "," (map (spec_fragment fmt) frags2))).
  { unfold list_add. rewrite <- map_app, build_seq_qrys_join, map_app.
    rewrite str_join_app; [reflexivity| |]; by destruct frags1, frags2. }
  repeat split; try apply build_seq_qrys_join; [exact Hadd|].
  unfold Composer.build_CTE. by rewrite Hadd.
Qed.

Lemma build_seq_qrys_list_add_witness :
  Composer.build_CTE (fun _ => "")
    (list_add [PTuple [PStr "A"; PStr "SELECT 1"]]
              [PTuple [PStr "B"; PStr "SELECT * FROM A"]])
    (PStr "SELECT * FROM B")
  = Ok "WITH A AS (SELECT 1),B AS (SELECT * FROM A) SELECT * FROM B;".
Proof.
  destruct (build_seq_qrys_list_add (fun _ => "")
              [(PStr "A", PStr "SELECT 1")]
              [(PStr "B", PStr "SELECT * FROM A")]
              "SELECT * FROM B" ltac:(discriminate) ltac:(discriminate))
    as (s1 & s2 & H1 & H2 & _ & Hcte).
  injection H1 as <-. injection H2 as <-. exact Hcte.
Defined.

(* ===================================================================== *)
(** * Further properties of the executor                                  *)
(* ===================================================================== *)

Lemma fetch_data_miss_success warehouse q df w :
  fetch_memo w !! q = None ->
  warehouse q = Ok df ->
  fetch_data warehouse (PStr q) w
  = (Ok df, set_memo (insert q df) (log_query q w)).
Proof.
  intros Hmiss Hok. unfold fetch_data. rewrite Hmiss.
  by rewrite (fetch_data_body_success warehouse q df w Hok).
Qed.

Lemma fetch_data_miss_failure warehouse q e w :
  fetch_memo w !! q = None ->
  warehouse q = Raise e ->
  is_Exception e = true ->
  fetch_data warehouse (PStr q) w
  = (Ok empty_frame,
     set_memo (insert q empty_frame)
       (emit (UiError ("Error executing query: " +:+ exn_msg e))
          (log_query q w))).
Proof.
  intros Hmiss Hraise Hexn. unfold fetch_data. rewrite Hmiss.
  by rewrite (fetch_data_body_failure warehouse q e w Hraise Hexn).
Qed.

Lemma fetch_data_miss_passes warehouse q e w :
  fetch_memo w !! q = None ->
  warehouse q = Raise e ->
  is_Exception e = false ->
  fetch_data warehouse (PStr q) w = (Raise e, log_query q w).
Proof.
  intros Hmiss Hraise Hexn. unfold fetch_data. rewrite Hmiss.
  by rewrite (fetch_data_body_passes warehouse q e w Hraise Hexn).
Qed.

Lemma memo_after_store q df w :
  fetch_memo (set_memo (insert q df) w) !! q = Some df.
Proof. unfold set_memo. cbn [fetch_memo]. apply lookup_insert_eq. Qed.


(** X2.  A query that is not in the store and that the warehouse answers
    goes out once, its table is returned and stored; asking again, with
    whatever the warehouse would now say, returns the same table and
    leaves the process as it is: no second query goes out. *)
Theorem fetch_data_success_then_reuse :
  forall (warehouse later : string -> result DataFrame)
         (q : string) (df : DataFrame) (w : world),
    fetch_memo w !! q = None ->
    warehouse q = Ok df ->
    fetch_data warehouse (PStr q) w
    = (Ok df, set_memo (insert q df) (log_query q w))
    /\ warehouse_log (fetch_data warehouse (PStr q) w).2
       = warehouse_log w ++ [q]
    /\ fetch_data later (PStr q) (fetch_data warehouse (PStr q) w).2
       = (Ok df, (fetch_data warehouse (PStr q) w).2).
Proof.
  intros warehouse later q df w Hmiss Hok.
  rewrite (fetch_data_miss_success warehouse q df w Hmiss Hok).
  repeat split.
  apply fetch_data_hit. apply memo_after_store.
Qed.

Lemma fetch_data_success_then_reuse_witness :
  fetch_data (fun _ => Raise (mkExn SnowparkSQLException "down"))
    (PStr "SELECT 1")
    (fetch_data (fun _ => Ok (numbered 2)) (PStr "SELECT 1") fresh).2
  = (Ok (numbered 2),
     mkWorld ∅ {[ "SELECT 1" := numbered 2 ]} ["SELECT 1"] []).
Proof.
  destruct (fetch_data_success_then_reuse
              (fun _ => Ok (numbered 2))
              (fun _ => Raise (mkExn SnowparkSQLException "down"))
              "SELECT 1" (numbered 2) fresh eq_refl eq_refl)
    as (_ & _ & Hagain).
  exact Hagain.
Defined.



(** X4.  What the warehouse call raises outside [Exception]
    ([KeyboardInterrupt], [SystemExit]) is not caught: [fetch_data]
    raises it, puts nothing on the page and stores nothing, so the query
    is still absent from the store. *)
Theorem fetch_data_interrupt_passes :
  forall (warehouse : string -> result DataFrame)
         (q : string) (e : exn) (w : world),
    fetch_memo w !! q = None ->
    warehouse q = Raise e ->
    is_Exception e = false ->
    fetch_data warehouse (PStr q) w = (Raise e, log_query q w)
    /\ ui_log (fetch_data warehouse (PStr q) w).2 = ui_log w
    /\ fetch_memo (fetch_data warehouse (PStr q) w).2 !! q = None.
Proof.
  intros warehouse q e w Hmiss Hraise Hexn.
  rewrite (fetch_data_miss_passes warehouse q e w Hmiss Hraise Hexn).
  repeat split. exact Hmiss.
Qed.

Lemma fetch_data_interrupt_passes_witness :
  fetch_data (fun _ => Raise (mkExn KeyboardInterrupt "")) (PStr "SELECT 1")
    fresh
  = (Raise (mkExn KeyboardInterrupt ""), mkWorld ∅ ∅ ["SELECT 1"] []).
Proof.
  exact (proj1 (fetch_data_interrupt_passes
                  (fun _ => Raise (mkExn KeyboardInterrupt ""))
                  "SELECT 1" (mkExn KeyboardInterrupt "") fresh
                  eq_refl eq_refl eq_refl)).
Defined.

Lemma fetch_data_non_string warehouse v w :
  is_str v = false ->
  fetch_data warehouse v w
  = (Raise (mkExn ValueError "Query must be a string."), w).
Proof. intros Hv. by destruct v. Qed.

(** X5.  Whatever it is called with, [fetch_data] never touches the
    session store, never drops or replaces an entry of its own store,
    and sends at most one query: either nothing goes out, or the
    argument is a string absent from the store and exactly that string
    goes out. *)
Theorem fetch_data_footprint :
  forall (warehouse : string -> result DataFrame) (v : pyval) (w : world),
    session_state (fetch_data warehouse v w).2 = session_state w
    /\ fetch_memo w ⊆ fetch_memo (fetch_data warehouse v w).2
    /\ (warehouse_log (fetch_data warehouse v w).2 = warehouse_log w
        \/ exists q : string,
             v = PStr q
             /\ fetch_memo w !! q = None
             /\ warehouse_log (fetch_data warehouse v w).2
                = warehouse_log w ++ [q]).
Proof.
  intros warehouse v w.
  destruct (is_str v) eqn:Hv.
  2:{ rewrite (fetch_data_non_string warehouse v w Hv). cbn [snd].
      repeat split; [done | by left]. }
  destruct v as [| | |q| | |]; try discriminate. clear Hv.
  destruct (fetch_memo w !! q) as [old|] eqn:Hmemo.
  { rewrite (fetch_data_hit warehouse q old w Hmemo). cbn [snd].
    repeat split; [done | by left]. }
  assert (Hgrow : forall df : DataFrame,
            fetch_memo w ⊆ <[q:=df]> (fetch_memo w))
    by (intros df; by apply insert_subseteq).
  destruct (warehouse q) as [got|e] eqn:Hwh.
  { rewrite (fetch_data_miss_success warehouse q got w Hmemo Hwh). cbn [snd].
    repeat split; [apply Hgrow | right; by exists q]. }
  destruct (is_Exception e) eqn:Hexn.
  - rewrite (fetch_data_miss_failure warehouse q e w Hmemo Hwh Hexn).
    cbn [snd]. repeat split; [apply Hgrow | right; by exists q].
  - rewrite (fetch_data_miss_passes warehouse q e w Hmemo Hwh Hexn).
    cbn [snd]. repeat split; [done | right; by exists q].
Qed.

Lemma fetch_data_sends warehouse q w :
  warehouse_log (fetch_data warehouse (PStr q) w).2 = warehouse_log w
  \/ warehouse_log (fetch_data warehouse (PStr q) w).2
     = warehouse_log w ++ [q].
Proof.
  destruct (fetch_memo w !! q) as [old|] eqn:Hmemo.
  { rewrite (fetch_data_hit warehouse q old w Hmemo). by left. }
  destruct (warehouse q) as [got|e] eqn:Hwh.
  { rewrite (fetch_data_miss_success warehouse q got w Hmemo Hwh). by right. }
  destruct (is_Exception e) eqn:Hexn.
  - rewrite (fetch_data_miss_failure warehouse q e w Hmemo Hwh Hexn). by right.
  - rewrite (fetch_data_miss_passes warehouse q e w Hmemo Hwh Hexn). by right.
Qed.

(** X6.  [get_query_result] sends the warehouse nothing but the statement
    the composer built: when the composer rejects its arguments, the
    composer's error is raised and the process is as before; otherwise
    either nothing goes out or exactly the composed statement does. *)
Theorem get_query_result_sends_composed :
  forall (fmt : pyval -> string) (warehouse : string -> result DataFrame)
         (query_list result_query : pyval) (w : world),
    match Composer.build_CTE fmt query_list result_query with
    | Raise e =>
        get_query_result fmt warehouse query_list result_query w
        = (Raise e, w)
    | Ok q =>
        warehouse_log
          (get_query_result fmt warehouse query_list result_query w).2
        = warehouse_log w
        \/ warehouse_log
             (get_query_result fmt warehouse query_list result_query w).2
           = warehouse_log w ++ [q]
    end.
Proof.
  intros fmt warehouse ql rq w.
  unfold get_query_result, bind, lift.
  destruct (Composer.build_CTE fmt ql rq) as [q|e]; [|reflexivity].
  apply fetch_data_sends.
Qed.

(* ===================================================================== *)
(** * Further properties of the result cache                              *)
(* ===================================================================== *)

(** X7.  [cache_df] checks the name first and the table second: a name
    that is not a string raises [ValueError] "df_name must be a string."
    whatever the second argument is; a string name with something that
    is not a DataFrame raises "df must be a Pandas DataFrame."; in both
    cases the process is as before.  With a string and a DataFrame it
    returns: the handler of its [try] is never entered. *)
Theorem cache_df_outcome :
  forall (df_name df : pyval) (w : world),
    if is_str df_name then
      if is_DataFrame df then (cache_df df_name df w).1 = Ok ()
      else cache_df df_name df w
           = (Raise (mkExn ValueError "df must be a Pandas DataFrame."), w)
    else cache_df df_name df w
         = (Raise (mkExn ValueError "df_name must be a string."), w).
Proof.
  intros k v w.
  destruct k as [| | |name| | |]; try reflexivity.
  destruct v as [| | | | | |d]; try reflexivity.
  cbn [is_str is_DataFrame]. by rewrite cache_df_run.
Qed.

(** X8.  What [cache_df] does to the process: afterwards the name holds
    the table it held before, or the new one when it held none; every
    other name holds what it held; the executor's store, the warehouse
    traffic and the page are as before. *)
Theorem cache_df_effect :
  forall (name : string) (d : DataFrame) (w : world),
    session_state (cache_df (PStr name) (PFrame d) w).2 !! name
    = Some (default d (session_state w !! name))
    /\ delete name (session_state (cache_df (PStr name) (PFrame d) w).2)
       = delete name (session_state w)
    /\ fetch_memo (cache_df (PStr name) (PFrame d) w).2 = fetch_memo w
    /\ warehouse_log (cache_df (PStr name) (PFrame d) w).2 = warehouse_log w
    /\ ui_log (cache_df (PStr name) (PFrame d) w).2 = ui_log w.
Proof.
  intros name d w. rewrite cache_df_run. cbn [snd].
  destruct (session_state w !! name) as [old|] eqn:Hname.
  - by rewrite Hname.
  - unfold set_session. cbn [session_state fetch_memo warehouse_log ui_log].
    rewrite lookup_insert_eq, delete_insert_eq. done.
Qed.

(** X9.  Caching under two different names does not depend on the
    order: either order leaves the same process. *)
Theorem cache_df_commute :
  forall (name1 name2 : string) (d1 d2 : DataFrame) (w : world),
    name1 <> name2 ->
    (cache_df (PStr name2) (PFrame d2)
       (cache_df (PStr name1) (PFrame d1) w).2).2
    = (cache_df (PStr name1) (PFrame d1)
         (cache_df (PStr name2) (PFrame d2) w).2).2.
Proof.
  intros name1 name2 d1 d2 w Hne.
  rewrite !cache_df_run. cbn [snd].
  destruct (session_state w !! name1) as [old1|] eqn:H1;
    destruct (session_state w !! name2) as [old2|] eqn:H2;
    rewrite ?H1, ?H2; try reflexivity;
    unfold set_session; cbn [session_state fetch_memo warehouse_log ui_log];
    rewrite ?lookup_insert_ne by congruence; rewrite ?H1, ?H2;
    try reflexivity.
  f_equal. by apply insert_insert_ne.
Qed.

Lemma cache_df_commute_witness :
  (cache_df (PStr "b") (PFrame (numbered 2))
     (cache_df (PStr "a") (PFrame (numbered 1)) fresh).2).2
  = (cache_df (PStr "a") (PFrame (numbered 1))
       (cache_df (PStr "b") (PFrame (numbered 2)) fresh).2).2.
Proof.
  exact (cache_df_commute "a" "b" (numbered 1) (numbered 2) fresh
           ltac:(discriminate)).
Defined.

(* ===================================================================== *)
(** * Further properties of the pager                                     *)
(* ===================================================================== *)

Lemma len_div_mod d :
  len d = 5 * (len d `div` 5) + len d `mod` 5 /\ 0 <= len d `mod` 5 < 5.
Proof.
  split; [apply Z.div_mod; lia | apply Z.mod_pos_bound; lia].
Qed.

Lemma displayed_admissible d page :
  1 <= page <= len d `div` 5 + 1 ->
  displayed d page = rows_between ((page - 1) * 5) (page * 5) (rows d).
Proof.
  intros Hpage. unfold displayed.
  rewrite (show_grid_admissible d page fresh Hpage). cbn [snd].
  rewrite shown_emit_frame, shown_emit_box.
  cbn. apply app_nil_r.
Qed.

Lemma displayed_take_drop d (i : nat) :
  Z.of_nat i <= len d `div` 5 ->
  displayed d (Z.of_nat i + 1) = take 5 (drop (5 * i) (rows d)).
Proof.
  intros Hi. rewrite displayed_admissible by lia.
  rewrite rows_between_take_drop. f_equal; [lia|]. f_equal. lia.
Qed.

Lemma displayed_prefix d (n : nat) :
  Z.of_nat n <= len d `div` 5 + 1 ->
  flat_map (displayed d) (map (fun i => Z.of_nat i + 1) (seq 0 n))
  = take (5 * n) (rows d).
Proof.
  induction n as [|n IH]; intros Hn; [reflexivity|].
  rewrite seq_S, map_app, flat_map_app. cbn [map flat_map Nat.add].
  rewrite app_nil_r, IH by lia.
  rewrite displayed_take_drop by lia.
  rewrite take_take_drop. f_equal. lia.
Qed.


(** X11.  What is not a DataFrame is refused before anything is drawn:
    [show_grid] raises [ValueError] "Input must be a Pandas DataFrame.";
    [show_result] checks the table first ("df must be a Pandas
    DataFrame.") and the title second ("title must be a string."), and
    in each case the page is as before.  With a DataFrame and a string
    title, [show_result] writes the title and then does what [show_grid]
    does, and returns. *)
Theorem show_result_outcome :
  forall (df title : pyval) (entry : Z) (w : world),
    (if is_DataFrame df then (show_grid df entry w).1 = Ok ()
     else show_grid df entry w
          = (Raise (mkExn ValueError "Input must be a Pandas DataFrame."), w))
    /\ (if is_DataFrame df then
          match title with
          | PStr t =>
              show_result df title entry w
              = show_grid df entry (emit (UiWrite t) w)
              /\ (show_result df title entry w).1 = Ok ()
          | _ =>
              show_result df title entry w
              = (Raise (mkExn ValueError "title must be a string."), w)
          end
        else show_result df title entry w
             = (Raise (mkExn ValueError "df must be a Pandas DataFrame."), w)).
Proof.
  intros df title entry w.
  destruct df as [| | | | | |d]; try (split; reflexivity).
  cbn [is_DataFrame]. split; [by rewrite show_grid_run|].
  destruct title as [| | |t| | |]; try reflexivity.
  assert (Hrun : show_result (PFrame d) (PStr t) entry w
                 = show_grid (PFrame d) entry (emit (UiWrite t) w))
    by reflexivity.
  split; [exact Hrun|]. by rewrite Hrun, show_grid_run.
Qed.

(** X12.  Paging loses and repeats nothing: going through the page
    numbers the page box lets through, [1 .. total_pages + 1] in order,
    shows every row of the table exactly once, in the table's order. *)
Theorem pages_cover_table :
  forall d : DataFrame,
    flat_map (displayed d) (page_numbers d) = rows d
    /\ length (page_numbers d) = Z.to_nat (len d `div` 5 + 1).
Proof.
  intros d. pose proof (total_pages_nonneg d) as Htp.
  pose proof (len_div_mod d) as [Hdm Hmod].
  split.
  - unfold page_numbers. rewrite displayed_prefix by lia.
    apply take_ge. unfold len in *. lia.
  - unfold page_numbers. by rewrite length_map, length_seq.
Qed.

(** X13.  Every page up to [total_pages] shows exactly 5 rows, and the
    last page, [total_pages + 1], shows the [rowCount mod 5] rows that
    are left: none when the row count is a multiple of 5. *)
Theorem page_row_counts :
  forall (d : DataFrame) (page : Z),
    (1 <= page <= len d `div` 5 -> length (displayed d page) = 5%nat)
    /\ Z.of_nat (length (displayed d (len d `div` 5 + 1))) = len d `mod` 5.
Proof.
  intros d page. pose proof (total_pages_nonneg d) as Htp.
  pose proof (len_div_mod d) as [Hdm Hmod].
  split.
  - intros Hpage. rewrite displayed_admissible by lia.
    pose proof (rows_between_length (rows d) ((page - 1) * 5) (page * 5)
                  ltac:(lia)) as Hlen.
    unfold len in *. lia.
  - rewrite displayed_admissible by lia.
    pose proof (rows_between_length (rows d)
                  ((len d `div` 5 + 1 - 1) * 5) ((len d `div` 5 + 1) * 5)
                  ltac:(lia)) as Hlen.
    unfold len in *. lia.
Qed.

Lemma page_row_counts_witness :
  (1 <= 2 <= len (numbered 12) `div` 5)
  /\ length (displayed (numbered 12) 2) = 5%nat
  /\ Z.of_nat (length (displayed (numbered 12) 3)) = 2.
Proof.
  assert (Hpage : 1 <= 2 <= len (numbered 12) `div` 5)
    by (vm_compute; split; discriminate).
  destruct (page_row_counts (numbered 12) 2) as (Hfull & Hlast).
  split; [exact Hpage|]. split; [exact (Hfull Hpage) | exact Hlast].
Defined.

(* ===================================================================== *)
(** * Properties of the loading statements                                *)
(* ===================================================================== *)

Lemma load_result_fragments fmt warehouse name frags final w :
  load_result fmt warehouse name (PList (map fragment frags)) (PStr final) w
  = match fetch_data warehouse (PStr (spec_CTE fmt frags final)) w with
    | (Ok df, w1) => cache_df name (PFrame df) w1
    | (Raise e, w1) => (Raise e, w1)
    end.
Proof.
  unfold load_result, bind.
  by rewrite get_query_result_fragments.
Qed.

Lemma cache_df_present name d t w :
  session_state w !! name = Some t ->
  cache_df (PStr name) (PFrame d) w = (Ok (), w).
Proof. intros Hname. by rewrite cache_df_run, Hname. Qed.







(** X16.  The session store does not spare the query: the argument of
    [cache_df] is evaluated first, so when the name is already in the
    session store but the query is not in the executor's store, the
    query still goes to the warehouse; its table is then dropped and the
    session store keeps what it had. *)
Theorem load_result_queries_anyway :
  forall (fmt : pyval -> string) (warehouse : string -> result DataFrame)
         (name : string) (frags : list (pyval * pyval)) (final : string)
         (kept got : DataFrame) (w : world),
    session_state w !! name = Some kept ->
    fetch_memo w !! spec_CTE fmt frags final = None ->
    warehouse (spec_CTE fmt frags final) = Ok got ->
    load_result fmt warehouse (PStr name)
      (PList (map fragment frags)) (PStr final) w
    = (Ok (),
       mkWorld (session_state w)
         (<[spec_CTE fmt frags final := got]> (fetch_memo w))
         (warehouse_log w ++ [spec_CTE fmt frags final])
         (ui_log w)).
Proof.
  intros fmt warehouse name frags final kept got w Hkept Hmiss Hok.
  rewrite load_result_fragments.
  rewrite (fetch_data_miss_success warehouse _ got w Hmiss Hok).
  by apply cache_df_present with kept.
Qed.

Lemma load_result_queries_anyway_witness :
  load_result (fun _ => "") (fun _ => Ok (numbered 2))
    (PStr "df_question_1")
    (PList [PTuple [PStr "A"; PStr "SELECT 1"]]) (PStr "SELECT * FROM A")
    (mkWorld {[ "df_question_1" := numbered 1 ]} ∅ [] [])
  = (Ok (),
     mkWorld {[ "df_question_1" := numbered 1 ]}
       {[ "WITH A AS (SELECT 1) SELECT * FROM A;" := numbered 2 ]}
       ["WITH A AS (SELECT 1) SELECT * FROM A;"] []).
Proof.
  exact (load_result_queries_anyway (fun _ => "") (fun _ => Ok (numbered 2))
           "df_question_1" [(PStr "A", PStr "SELECT 1")] "SELECT * FROM A"
           (numbered 1) (numbered 2)
           (mkWorld {[ "df_question_1" := numbered 1 ]} ∅ [] [])
           eq_refl eq_refl eq_refl).
Defined.
